(** * Expo push client: a shallow embedding of [push_client.go]

    The Go file holds the client configuration ([NewPushClient]), the
    single and batch send operations ([Publish], [PublishMultiple],
    [publishInternal]) and the status check ([checkStatus]).  The HTTP
    transport (fast-shot) and the JSON codec are collaborators: they are
    section variables here, and every call that reaches one of them leaves
    an event in a log, so that statements about "the request was never
    issued" or "the body was closed" are statements about that log. *)

From Stdlib Require Import ZArith DecimalString.
From stdpp Require Import base option list strings gmap.

Local Open Scope string_scope.
Local Open Scope Z_scope.
Local Open Scope list_scope.

(** ** Go values *)

(** A Go slice that the code compares with [nil] is an [option (list A)]:
    [None] is the nil slice, [Some []] an empty slice that is not nil.  A
    slice the code only measures and ranges over is a plain [list]. *)
Abbreviation slice A := (option (list A)) (only parsing).

(** [len] of a slice; the nil slice has length 0. *)
Definition len {A : Type} (s : list A) : Z := Z.of_nat (length s).

(** The verb [%d] of package fmt. *)
Definition fmt_d (n : Z) : string := NilZero.string_of_int (Z.to_int n).

(** ** Data model *)

(** Modelled from the spec: the declaration of [PushMessage] is not in
    push_client.go.  The code reads the field [To] only; the other fields
    are the notification payload, passed through as they are. *)
Record PushMessage : Type := mkPushMessage {
  To : list string;
  Title : string;
  Body : string;
  Data_ : gmap string string;
  Sound : string;
  Priority : string
}.

(** Modelled from the spec: the declaration of [PushResponse] is not in
    push_client.go.  The wire fields are a status, a receipt identifier
    and an error detail; the field [PushMessage] (here [OrigMessage],
    since the record type has that name) is written by [publishInternal]. *)
Record PushResponse : Type := mkPushResponse {
  OrigMessage : PushMessage;
  ID : string;
  Status_ : string;
  Message : string;
  Details : gmap string string
}.

(** The zero values [PushMessage{}] and [PushResponse{}]. *)
Definition PushMessage_zero : PushMessage :=
  mkPushMessage [] "" "" ∅ "" "".
Definition PushResponse_zero : PushResponse :=
  mkPushResponse PushMessage_zero "" "" "" ∅.

(** Modelled from the spec: the declaration of [Response], the decoded
    envelope, is not in push_client.go.  Both fields are optional on the
    wire and compared with [nil] by the code. *)
Record Response : Type := mkResponse {
  Data : slice PushResponse;
  Errors : slice (gmap string string)
}.

(** What the code uses of fast-shot: a response with its status code, its
    status text and its body stream (identified by its bytes), and a client
    as an interface value. *)
Module fastshot.
Record Response : Type := mkResponse {
  StatusCode : Z;
  Status : string;
  RawBody : string
}.
End fastshot.

Record Request : Type := mkRequest {
  req_method : string;
  req_url : string;
  req_headers : list (string * string);
  req_body : list PushMessage
}.

(** Go's [error].  [errorString] is what [errors.New] and [fmt.Errorf]
    build; [foreignError] is an error value of a collaborator (transport,
    codec). *)
Inductive error : Type :=
  | errorString (s : string)
  | foreignError (origin detail : string)
  | PushServerError (msg : string) (resp : fastshot.Response)
                    (body : Response) (errs : slice (gmap string string)).

Definition errors_New (s : string) : error := errorString s.

(** Modelled from the spec: [NewPushServerError] is not in push_client.go;
    the error carries the message, the raw response, the decoded envelope
    and the batch-level errors. *)
Definition NewPushServerError (message : string) (response : fastshot.Response)
    (responseBody : Response) (errs : slice (gmap string string)) : error :=
  PushServerError message response responseBody errs.

(** The interface [fastshot.ClientHttpMethods]: the base URL and headers
    the client was built with, and what sending a request through it
    yields. *)
Record ClientHttpMethods : Type := mkClient {
  client_baseURL : string;
  client_headers : list (string * string);
  client_do : Request -> error + fastshot.Response
}.

(** ** Effects *)

Inductive Event : Type :=
  | EvSend (req : Request)
  | EvDecode (body : string)
  | EvClose (body : string).

Inductive Outcome (A : Type) : Type :=
  | Returns (a : A)
  | Panics (reason : string).
Arguments Returns {A} a.
Arguments Panics {A} reason.

(** A computation reads the log of what happened so far and extends it. *)
Definition Go (A : Type) : Type := list Event -> Outcome A * list Event.

Definition ret {A} (a : A) : Go A := fun log => (Returns a, log).
Definition panic {A} (reason : string) : Go A := fun log => (Panics reason, log).
Definition bind {A B} (m : Go A) (k : A -> Go B) : Go B :=
  fun log =>
    match m log with
    | (Returns a, log') => k a log'
    | (Panics reason, log') => (Panics reason, log')
    end.
Definition emit (ev : Event) : Go unit := fun log => (Returns tt, log ++ [ev]).
Definition lift {A} (o : Outcome A) : Go A := fun log => (o, log).

(** [defer cleanup; rest]: the deferred call runs when the function
    leaves, by return or by panic. *)
Definition defer {A} (cleanup : Go unit) (rest : Go A) : Go A :=
  fun log =>
    match rest log with
    | (Returns a, log') =>
        match cleanup log' with
        | (Returns _, log'') => (Returns a, log'')
        | (Panics reason, log'') => (Panics reason, log'')
        end
    | (Panics reason, log') => (Panics reason, snd (cleanup log'))
    end.

#[global] Instance Go_ret : MRet Go := @ret.
#[global] Instance Go_bind : MBind Go := fun A B k m => bind m k.

(** A function result [(T, error)]. *)
Abbreviation result T := (T * option error)%type (only parsing).

(** ** Constants *)

Definition DefaultHost : string := "https://exp.host".
Definition DefaultBaseAPIURL : string := "/--/api/v2".

(** ** The client *)

Section PushClient.

(** The collaborators: what the network answers to a request sent by a
    client that [DefaultHTTPClient] built, and what the JSON decoder makes
    of a body ([var r *Response; err = Decode(&r)]: the pointer, nil when
    the body is the JSON [null], and the error). *)
Variable network : Request -> error + fastshot.Response.
Variable jsonDecode : string -> option Response * option error.

Definition mime_JSON : string := "application/json".

Definition DefaultHTTPClient (host accessToken : string) : ClientHttpMethods :=
  let headers := [("Content-Type", "application/json"); ("Accept", mime_JSON)] in
  let headers :=
    if decide (accessToken ≠ "")
    then headers ++ [("Authorization", "Bearer " +:+ accessToken)]
    else headers in
  mkClient host headers network.

Record PushClient : Type := mkPushClient {
  host : string;
  apiURL : string;
  accessToken : string;
  httpClient : option ClientHttpMethods
}.

Record ClientConfig : Type := mkClientConfig {
  Host : string;
  APIURL : string;
  AccessToken : string;
  HTTPClient : option ClientHttpMethods
}.

Definition NewPushClient (config : option ClientConfig) : PushClient :=
  let httpClient0 : option ClientHttpMethods := None in
  let host0 := DefaultHost in
  let apiURL0 := DefaultBaseAPIURL in
  let accessToken0 := "" in
  match config with
  | Some config =>
      let host1 := if decide (Host config ≠ "") then Host config else host0 in
      let apiURL1 := if decide (APIURL config ≠ "") then APIURL config else apiURL0 in
      let accessToken1 :=
        if decide (AccessToken config ≠ "") then AccessToken config else accessToken0 in
      let httpClient1 :=
        match HTTPClient config with
        | Some h => Some h
        | None => Some (DefaultHTTPClient host1 accessToken1)
        end in
      mkPushClient host1 apiURL1 accessToken1 httpClient1
  | None => mkPushClient host0 apiURL0 accessToken0 httpClient0
  end.

(** [cl.POST(path).Body().AsJSON(messages).Send()].  [req_url] records
    the base URL of the client and the path handed to [POST], one after the
    other; how fast-shot joins the two, and what it does with a base URL it
    could not parse, is inside [client_do]. *)
Definition POST_AsJSON_Send (cl : ClientHttpMethods) (path : string)
    (messages : list PushMessage) : Go (error + fastshot.Response) :=
  let req := mkRequest "POST" (client_baseURL cl +:+ path) (client_headers cl) messages in
  emit (EvSend req);; mret (client_do cl req).

(** [json.NewDecoder(body).Decode(&r)] and [body.Close()] *)
Definition Decode (body : string) : Go (option Response * option error) :=
  emit (EvDecode body);; mret (jsonDecode body).
Definition Close (body : string) : Go unit := emit (EvClose body).

Definition checkStatus (resp : fastshot.Response) : option error :=
  if (fastshot.StatusCode resp >=? 200) && (fastshot.StatusCode resp <=? 299)
  then None
  else Some (errorString ("invalid response (" +:+ fmt_d (fastshot.StatusCode resp)
                          +:+ " " +:+ fastshot.Status resp +:+ ")")).

(** The inner validation loop, over the recipients of one message. *)
Fixpoint validateRecipients (to : list string) : option error :=
  match to with
  | [] => None
  | recipient :: rest =>
      if decide (recipient = "") then Some (errors_New "invalid push token")
      else validateRecipients rest
  end.

(** The outer validation loop, over the messages. *)
Fixpoint validateMessages (messages : list PushMessage) : option error :=
  match messages with
  | [] => None
  | message :: rest =>
      if len (To message) =? 0 then Some (errors_New "no recipients")
      else match validateRecipients (To message) with
           | Some err => Some err
           | None => validateMessages rest
           end
  end.

(** [r.Data[i].PushMessage = m] *)
Definition setPushMessage (p : PushResponse) (m : PushMessage) : PushResponse :=
  mkPushResponse m (ID p) (Status_ p) (Message p) (Details p).

(** [for i := range data { data[i].PushMessage = messages[i] }], the
    indices given as a list; an index outside a slice panics. *)
Fixpoint attachLoop (idx : list nat) (messages : list PushMessage)
    (data : list PushResponse) : Outcome (list PushResponse) :=
  match idx with
  | [] => Returns data
  | i :: rest =>
      match messages !! i, data !! i with
      | Some m, Some d => attachLoop rest messages (<[i := setPushMessage d m]> data)
      | _, _ => Panics "index out of range"
      end
  end.

Definition mismatchMessage (expected received : Z) : string :=
  "Mismatched response length. Expected " +:+ fmt_d expected
    +:+ " receipts but only received " +:+ fmt_d received.

Definition publishInternal (c : PushClient) (messages : list PushMessage)
    : Go (result (slice PushResponse)) :=
  match validateMessages messages with
  | Some err => mret (None, Some err)
  | None =>
  match httpClient c with
  | None => panic "nil pointer dereference"
  | Some cl =>
  sent ← POST_AsJSON_Send cl (apiURL c +:+ "/push/send") messages;
  match sent with
  | inl err => mret (None, Some err)
  | inr resp =>
  match checkStatus resp with
  | Some err => mret (None, Some err)
  | None =>
  defer (Close (fastshot.RawBody resp)) (
    decoded ← Decode (fastshot.RawBody resp);
    match decoded with
    | (_, Some err) => mret (None, Some err)
    | (None, None) => panic "nil pointer dereference"
    | (Some r, None) =>
    match Errors r with
    | Some errs =>
        mret (None, Some (NewPushServerError "Invalid server response" resp r (Some errs)))
    | None =>
    match Data r with
    | None => mret (None, Some (NewPushServerError "Invalid server response" resp r None))
    | Some data =>
    if negb (len messages =? len data) then
      let errorMessage := mismatchMessage (len messages) (len data) in
      mret (None, Some (NewPushServerError errorMessage resp r None))
    else
      data' ← lift (attachLoop (seq 0 (length data)) messages data);
      mret (Some data', None)
    end end end)
  end end end end.

Definition PublishMultiple (c : PushClient) (messages : list PushMessage)
    : Go (result (slice PushResponse)) :=
  publishInternal c messages.

(** [message] is a pointer: [None] is nil. *)
Definition Publish (c : PushClient) (message : option PushMessage)
    : Go (result PushResponse) :=
  match message with
  | None => panic "nil pointer dereference"
  | Some m =>
  '(responses, err) ← PublishMultiple c [m];
  match err with
  | Some err => mret (PushResponse_zero, Some err)
  | None =>
      match default [] responses !! 0%nat with
      | Some response => mret (response, None)
      | None => panic "index out of range"
      end
  end
  end.

End PushClient.

(** ** Validation *)

(** The invariant of an outbound message, in the spec's words: the
    recipient list is not empty and no recipient is the empty string. *)
Definition validMessage (m : PushMessage) : Prop :=
  To m ≠ [] ∧ Forall (λ t, t ≠ "") (To m).

Definition offending (m : PushMessage) : Prop :=
  To m = [] ∨ "" ∈ To m.

(** The validation error a message that breaks the invariant stands for. *)
Definition validationErrorOf (m : PushMessage) : error :=
  if decide (To m = []) then errorString "no recipients"
  else errorString "invalid push token".

#[global] Instance offending_dec m : Decision (offending m).
Proof. unfold offending. apply _. Defined.

(** ** Reading a run *)

(** The request [publishInternal] sends through the client [cl]. *)
Definition publishRequest (c : PushClient) (cl : ClientHttpMethods)
    (messages : list PushMessage) : Request :=
  mkRequest "POST" (client_baseURL cl +:+ (apiURL c +:+ "/push/send"))
    (client_headers cl) messages.

(** Steps 5 to 7 of the batch send as a function of what the decoder
    returned.  It is a reading aid for the proofs: [publishInternal_2xx]
    shows that [publishInternal] computes it once the status check has
    passed. *)
Definition reconcile (resp : fastshot.Response) (messages : list PushMessage)
    (decoded : option Response * option error)
    : Outcome (result (slice PushResponse)) :=
  match decoded with
  | (_, Some err) => Returns (None, Some err)
  | (None, None) => Panics "nil pointer dereference"
  | (Some r, None) =>
      match Errors r, Data r with
      | Some errs, _ =>
          Returns (None, Some (PushServerError "Invalid server response" resp r (Some errs)))
      | None, None =>
          Returns (None, Some (PushServerError "Invalid server response" resp r None))
      | None, Some data =>
          if decide (length messages = length data)
          then Returns (Some (zip_with setPushMessage data messages), None)
          else Returns (None, Some (PushServerError
                 (mismatchMessage (len messages) (len data)) resp r None))
      end
  end.

(** The events of a run that got a response and passed the status check. *)
Definition eventsOf2xx (req : Request) (resp : fastshot.Response) : list Event :=
  [EvSend req; EvDecode (fastshot.RawBody resp); EvClose (fastshot.RawBody resp)].

(** ** Sample inputs

    Messages, responses, a transport stub that answers every request the
    same way and a decoder stub for the bodies used below. *)
Module Sample.

Definition msgA : PushMessage :=
  mkPushMessage ["ExponentPushToken[A]"] "title A" "body A" ∅ "default" "high".
Definition msgB : PushMessage :=
  mkPushMessage ["ExponentPushToken[B]"; "ExponentPushToken[C]"] "title B" "" ∅ "" "".
Definition msgNoRecipients : PushMessage := mkPushMessage [] "t" "b" ∅ "" "".
Definition msgEmptyToken : PushMessage := mkPushMessage ["ExponentPushToken[A]"; ""] "t" "b" ∅ "" "".

Definition receiptOk (id : string) : PushResponse :=
  mkPushResponse PushMessage_zero id "ok" "" ∅.
Definition receiptError : PushResponse :=
  mkPushResponse PushMessage_zero "" "error" "not registered"
    {[ "error" := "DeviceNotRegistered" ]}.

Definition batchError : gmap string string := {[ "message" := "bad" ]}.

Definition decode (body : string) : option Response * option error :=
  if decide (body = "two") then
    (Some (mkResponse (Some [receiptOk "r1"; receiptError]) None), None)
  else if decide (body = "one") then
    (Some (mkResponse (Some [receiptOk "r1"]) None), None)
  else if decide (body = "none") then
    (Some (mkResponse (Some []) None), None)
  else if decide (body = "no errors, one") then
    (Some (mkResponse (Some [receiptOk "r1"]) (Some [])), None)
  else if decide (body = "errors") then
    (Some (mkResponse None (Some [batchError])), None)
  else if decide (body = "{}") then
    (Some (mkResponse None None), None)
  else if decide (body = "null") then (None, None)
  else (None, Some (foreignError "json" "invalid character")).

Definition network (req : Request) : error + fastshot.Response :=
  inl (foreignError "net" "no route to host").

Definition answering (resp : fastshot.Response) : ClientHttpMethods :=
  mkClient "https://stub" [] (λ _, inr resp).

Definition ok (body : string) : fastshot.Response :=
  fastshot.mkResponse 200 "OK" body.
Definition serverError : fastshot.Response :=
  fastshot.mkResponse 500 "Internal Server Error" "oops".

Definition clientOf (cl : ClientHttpMethods) : PushClient :=
  mkPushClient DefaultHost DefaultBaseAPIURL "" (Some cl).

(** A client without a transport. *)
Definition unconfigured : PushClient :=
  mkPushClient DefaultHost DefaultBaseAPIURL "" None.

End Sample.

(** * Properties *)

Lemma len_zero_nil {A} (l : list A) : (len l =? 0) = bool_decide (l = []).
Proof.
  unfold len. by destruct l.
Qed.

Lemma validateRecipients_spec to :
  validateRecipients to =
    if decide ("" ∈ to) then Some (errorString "invalid push token") else None.
Proof.
  induction to as [|t to IH]; cbn [validateRecipients].
  - case_decide; [set_solver | done].
  - rewrite IH. unfold errors_New.
    destruct (decide (t = "")) as [->|Hne].
    + rewrite decide_True; [done | apply list_elem_of_here].
    + destruct (decide ("" ∈ to)) as [Hin|Hnin].
      * rewrite decide_True; [done | by apply list_elem_of_further].
      * rewrite decide_False; [done|].
        intros [Heq|Hin]%elem_of_cons; [by apply Hne | by apply Hnin].
Qed.

Lemma not_offending_valid m : ¬ offending m ↔ validMessage m.
Proof.
  unfold offending, validMessage. rewrite Forall_forall. split.
  - intros H. split; [tauto|]. intros t Ht ->. tauto.
  - intros [Hne Hall] [Hnil | Hin]; [done|]. by apply (Hall "").
Qed.

Lemma validateMessages_cons m rest :
  validateMessages (m :: rest) =
    if decide (offending m) then Some (validationErrorOf m)
    else validateMessages rest.
Proof.
  cbn [validateMessages]. rewrite len_zero_nil, validateRecipients_spec.
  unfold validationErrorOf, offending, errors_New.
  case_bool_decide; destruct (decide ("" ∈ To m)), (decide (To m = [])),
    (decide (To m = [] ∨ "" ∈ To m)); first [done | tauto].
Qed.

Lemma validateMessages_valid messages :
  validateMessages messages = None ↔ Forall validMessage messages.
Proof.
  induction messages as [|m rest IH].
  - split; [constructor | done].
  - rewrite validateMessages_cons, Forall_cons, <- not_offending_valid.
    destruct (decide (offending m)); [split; [done | tauto] | tauto].
Qed.

Lemma validateMessages_first pre m post :
  Forall validMessage pre → offending m →
  validateMessages (pre ++ m :: post) = Some (validationErrorOf m).
Proof.
  intros Hpre Hm. induction Hpre as [|x pre Hx _ IH]; simpl app.
  - rewrite validateMessages_cons. by rewrite decide_True.
  - rewrite validateMessages_cons.
    rewrite decide_False; [done | by apply not_offending_valid].
Qed.

Lemma Exists_first_offending messages :
  Exists offending messages →
  ∃ pre m post, messages = pre ++ m :: post ∧ Forall validMessage pre ∧ offending m.
Proof.
  induction messages as [|x rest IH]; intros HE.
  - by apply Exists_nil in HE.
  - destruct (decide (offending x)) as [Hx|Hx].
    + exists [], x, rest. by repeat split.
    + apply Exists_cons in HE as [?|HE]; [done|].
      destruct (IH HE) as (pre & m & post & -> & Hpre & Hm).
      exists (x :: pre), m, post. repeat split; [|done].
      constructor; [by apply not_offending_valid | done].
Qed.

(** ** The pairing loop *)

Lemma attachLoop_seq n : ∀ k messages data,
  (k + n ≤ length data)%nat → (k + n ≤ length messages)%nat →
  ∃ data', attachLoop (seq k n) messages data = Returns data'
    ∧ length data' = length data
    ∧ ∀ i, data' !! i =
        if decide (k ≤ i < k + n)%nat
        then d ← data !! i; m ← messages !! i; Some (setPushMessage d m)
        else data !! i.
Proof.
  induction n as [|n IH]; intros k messages data Hd Hm.
  - exists data. split; [done|]. split; [done|]. intros i.
    rewrite decide_False; [done | lia].
  - cbn [seq attachLoop].
    destruct (lookup_lt_is_Some_2 messages k) as [m Hmk]; [lia|].
    destruct (lookup_lt_is_Some_2 data k) as [d Hdk]; [lia|].
    rewrite Hmk, Hdk.
    destruct (IH (S k) messages (<[k := setPushMessage d m]> data))
      as (data' & Hrun & Hlen & Hlook).
    { rewrite length_insert. lia. }
    { lia. }
    exists data'. split; [done|]. split; [by rewrite Hlen, length_insert|].
    intros i. rewrite Hlook.
    destruct (decide (i = k)) as [->|Hik].
    + rewrite decide_False by lia. rewrite decide_True by lia.
      rewrite list_lookup_insert_eq by lia. by rewrite Hdk, Hmk.
    + rewrite list_lookup_insert_ne by done.
      destruct (decide (S k ≤ i < S k + n)%nat), (decide (k ≤ i < k + S n)%nat);
        first [done | lia].
Qed.

Lemma attachLoop_zip messages data :
  length data = length messages →
  attachLoop (seq 0 (length data)) messages data
    = Returns (zip_with setPushMessage data messages).
Proof.
  intros Hlen.
  destruct (attachLoop_seq (length data) 0 messages data)
    as (data' & -> & Hlen' & Hlook); [lia | lia |].
  f_equal. apply list_eq. intros i.
  rewrite Hlook, lookup_zip_with.
  destruct (decide (0 ≤ i < 0 + length data)%nat) as [|Hout]; [done|].
  rewrite lookup_ge_None_2 by lia. done.
Qed.

Lemma zip_setPushMessage_lookup data messages i :
  length data = length messages →
  OrigMessage <$> zip_with setPushMessage data messages !! i = messages !! i.
Proof.
  intros Hlen. rewrite lookup_zip_with.
  destruct (messages !! i) as [m|] eqn:Hm.
  - destruct (lookup_lt_is_Some_2 data i) as [d ->]; [|done].
    rewrite Hlen. by eapply lookup_lt_Some.
  - by destruct (data !! i).
Qed.

(** ** The paths of [publishInternal] *)

Ltac run_go :=
  unfold publishInternal, POST_AsJSON_Send, Decode, Close, defer, emit, lift,
    panic, mbind, Go_bind, bind, mret, Go_ret, ret; cbn beta iota.

Lemma len_eqb_length {A B} (l : list A) (k : list B) :
  (len l =? len k) = bool_decide (length l = length k).
Proof.
  unfold len. case_bool_decide as H.
  - apply Z.eqb_eq. by rewrite H.
  - apply Z.eqb_neq. lia.
Qed.

Section Paths.
Variable jsonDecode : string -> option Response * option error.
Variables (c : PushClient) (messages : list PushMessage) (log : list Event).

Lemma publishInternal_invalid err :
  validateMessages messages = Some err →
  publishInternal jsonDecode c messages log = (Returns (None, Some err), log).
Proof. intros H. run_go. by rewrite H. Qed.

Lemma publishInternal_no_client :
  validateMessages messages = None → httpClient c = None →
  publishInternal jsonDecode c messages log = (Panics "nil pointer dereference", log).
Proof. intros H1 H2. run_go. by rewrite H1, H2. Qed.

Variable cl : ClientHttpMethods.
Hypothesis Hvalid : validateMessages messages = None.
Hypothesis Hclient : httpClient c = Some cl.

Lemma publishInternal_transport_error err :
  client_do cl (publishRequest c cl messages) = inl err →
  publishInternal jsonDecode c messages log
    = (Returns (None, Some err), log ++ [EvSend (publishRequest c cl messages)]).
Proof.
  intros H. run_go. rewrite Hvalid, Hclient. cbn beta iota.
  fold (publishRequest c cl messages). by rewrite H.
Qed.

Variable resp : fastshot.Response.
Hypothesis Hsent : client_do cl (publishRequest c cl messages) = inr resp.

Lemma publishInternal_bad_status err :
  checkStatus resp = Some err →
  publishInternal jsonDecode c messages log
    = (Returns (None, Some err), log ++ [EvSend (publishRequest c cl messages)]).
Proof.
  intros H. run_go. rewrite Hvalid, Hclient. cbn beta iota.
  fold (publishRequest c cl messages). by rewrite Hsent, H.
Qed.

Lemma publishInternal_2xx :
  checkStatus resp = None →
  publishInternal jsonDecode c messages log
    = (reconcile resp messages (jsonDecode (fastshot.RawBody resp)),
       log ++ eventsOf2xx (publishRequest c cl messages) resp).
Proof.
  intros H. run_go. rewrite Hvalid, Hclient. cbn beta iota.
  fold (publishRequest c cl messages). rewrite Hsent, H.
  unfold reconcile, eventsOf2xx, NewPushServerError.
  destruct (jsonDecode (fastshot.RawBody resp)) as [[r|] [err|]];
    try (cbn; by rewrite <- !(assoc_L (++))).
  destruct (Errors r) as [errs|]; [cbn; by rewrite <- !(assoc_L (++))|].
  destruct (Data r) as [data|]; [|cbn; by rewrite <- !(assoc_L (++))].
  rewrite len_eqb_length.
  case_bool_decide as Hlen; cbn [negb].
  - rewrite decide_True by done.
    rewrite attachLoop_zip by done. cbn. by rewrite <- !(assoc_L (++)).
  - rewrite decide_False by done. cbn. by rewrite <- !(assoc_L (++)).
Qed.

End Paths.

(** ** Worked examples *)

Example fmt_d_examples :
  fmt_d 0 = "0" ∧ fmt_d 2 = "2" ∧ fmt_d 404 = "404" ∧ fmt_d (-1) = "-1".
Proof. by vm_compute. Qed.

(** Two messages, two receipts: receipt [i] gets message [i], also when the
    receipt reports a failure for its recipient. *)
Example PublishMultiple_two :
  PublishMultiple Sample.decode (Sample.clientOf (Sample.answering (Sample.ok "two")))
    [Sample.msgA; Sample.msgB] []
  = (Returns (Some [mkPushResponse Sample.msgA "r1" "ok" "" ∅;
                    mkPushResponse Sample.msgB "" "error" "not registered"
                      {[ "error" := "DeviceNotRegistered" ]}], None),
     [EvSend (mkRequest "POST" "https://stub/--/api/v2/push/send" []
                [Sample.msgA; Sample.msgB]);
      EvDecode "two"; EvClose "two"]).
Proof. by vm_compute. Qed.

(** A client built from a config with a credential sends it as a bearer
    token; an error of the transport is returned as it is. *)
Example PublishMultiple_default_transport :
  PublishMultiple Sample.decode
    (NewPushClient Sample.network (Some (mkClientConfig "" "/v3" "secret" None)))
    [Sample.msgA] []
  = (Returns (None, Some (foreignError "net" "no route to host")),
     [EvSend (mkRequest "POST" "https://exp.host/v3/push/send"
                [("Content-Type", "application/json"); ("Accept", "application/json");
                 ("Authorization", "Bearer secret")]
                [Sample.msgA])]).
Proof. by vm_compute. Qed.

(** A body that is the JSON [null] decodes without an error into a nil
    pointer; the deferred [Close] still runs. *)
Example PublishMultiple_null_body :
  PublishMultiple Sample.decode (Sample.clientOf (Sample.answering (Sample.ok "null")))
    [Sample.msgA] []
  = (Panics "nil pointer dereference",
     [EvSend (mkRequest "POST" "https://stub/--/api/v2/push/send" [] [Sample.msgA]);
      EvDecode "null"; EvClose "null"]).
Proof. by vm_compute. Qed.

Example Publish_one :
  Publish Sample.decode (Sample.clientOf (Sample.answering (Sample.ok "one")))
    (Some Sample.msgA) []
  = (Returns (mkPushResponse Sample.msgA "r1" "ok" "" ∅, None),
     [EvSend (mkRequest "POST" "https://stub/--/api/v2/push/send" [] [Sample.msgA]);
      EvDecode "one"; EvClose "one"]).
Proof. by vm_compute. Qed.

Example Publish_invalid :
  Publish Sample.decode (Sample.clientOf (Sample.answering (Sample.ok "one")))
    (Some Sample.msgEmptyToken) []
  = (Returns (PushResponse_zero, Some (errorString "invalid push token")), []).
Proof. by vm_compute. Qed.

Lemma reconcile_success resp messages decoded rs :
  reconcile resp messages decoded = Returns (rs, None) →
  ∃ r data, decoded = (Some r, None) ∧ Errors r = None ∧ Data r = Some data
    ∧ length data = length messages
    ∧ rs = Some (zip_with setPushMessage data messages).
Proof.
  unfold reconcile. destruct decoded as [[r|] [err|]]; try done.
  destruct (Errors r) as [errs|] eqn:He; [done|].
  destruct (Data r) as [data|] eqn:Hd; [|done].
  case_decide as Hlen; [|done].
  intros [= <-]. by exists r, data.
Qed.

(** A run that returns without an error went through every step. *)
Lemma publishInternal_success_inv jsonDecode c messages log rs log' :
  publishInternal jsonDecode c messages log = (Returns (rs, None), log') →
  ∃ cl resp r data,
    validateMessages messages = None
    ∧ httpClient c = Some cl
    ∧ client_do cl (publishRequest c cl messages) = inr resp
    ∧ checkStatus resp = None
    ∧ jsonDecode (fastshot.RawBody resp) = (Some r, None)
    ∧ Errors r = None ∧ Data r = Some data
    ∧ length data = length messages
    ∧ rs = Some (zip_with setPushMessage data messages)
    ∧ log' = log ++ eventsOf2xx (publishRequest c cl messages) resp.
Proof.
  destruct (validateMessages messages) as [err|] eqn:Hv.
  { by rewrite (publishInternal_invalid _ _ _ _ err). }
  destruct (httpClient c) as [cl|] eqn:Hc.
  2: { by rewrite publishInternal_no_client. }
  destruct (client_do cl (publishRequest c cl messages)) as [err|resp] eqn:Hs.
  { by rewrite (publishInternal_transport_error _ _ _ _ cl Hv Hc err). }
  destruct (checkStatus resp) as [err|] eqn:Hst.
  { by rewrite (publishInternal_bad_status _ _ _ _ cl Hv Hc resp Hs err). }
  rewrite (publishInternal_2xx _ _ _ _ cl Hv Hc resp Hs Hst).
  intros [= Hrec <-].
  apply reconcile_success in Hrec as (r & data & Hdec & He & Hd & Hlen & ->).
  by exists cl, resp, r, data.
Qed.

(** ** Pairing *)

(** C1: for a non-empty list of messages with valid recipients, a call of
    [PublishMultiple] that returns without an error returns a list of the
    length of the input, in the order of the input and of the decoded data
    list: the element at each position [i] is the receipt the decoder
    produced at position [i], its wire fields untouched, carrying input
    message [i] as its back-reference.  Nothing is reordered and nothing
    is matched by content.  (The two conditions on the input are those of
    the claim; the conclusion holds of every successful call.) *)
Theorem PublishMultiple_pairs_by_position jsonDecode c messages log rs log' :
  messages ≠ [] →
  Forall validMessage messages →
  PublishMultiple jsonDecode c messages log = (Returns (rs, None), log') →
  ∃ cl resp r data results,
    httpClient c = Some cl
    ∧ client_do cl (publishRequest c cl messages) = inr resp
    ∧ jsonDecode (fastshot.RawBody resp) = (Some r, None)
    ∧ Data r = Some data
    ∧ rs = Some results
    ∧ length results = length messages
    ∧ length data = length messages
    ∧ ∀ i, (i < length messages)%nat →
        ∃ m d, messages !! i = Some m
          ∧ data !! i = Some d
          ∧ results !! i
            = Some (mkPushResponse m (ID d) (Status_ d) (Message d) (Details d))
          ∧ OrigMessage <$> results !! i = messages !! i.
Proof.
  intros _ _ Hrun. unfold PublishMultiple in Hrun.
  apply publishInternal_success_inv in Hrun
    as (cl & resp & r & data & _ & Hc & Hs & _ & Hdec & _ & Hd & Hlen & -> & _).
  exists cl, resp, r, data, (zip_with setPushMessage data messages).
  repeat (split; [done|]). split; [rewrite length_zip_with; lia|].
  split; [done|]. intros i Hi.
  destruct (lookup_lt_is_Some_2 messages i) as [m Hm]; [done|].
  destruct (lookup_lt_is_Some_2 data i) as [d Hdi]; [lia|].
  exists m, d. split; [done|]. split; [done|].
  rewrite lookup_zip_with, Hdi, Hm. by split.
Qed.

Lemma PublishMultiple_pairs_by_position_witness :
  ∃ cl resp r data results,
    httpClient (Sample.clientOf (Sample.answering (Sample.ok "two"))) = Some cl
    ∧ client_do cl (publishRequest
                      (Sample.clientOf (Sample.answering (Sample.ok "two")))
                      cl [Sample.msgA; Sample.msgB]) = inr resp
    ∧ Sample.decode (fastshot.RawBody resp) = (Some r, None)
    ∧ Data r = Some data
    ∧ Some [mkPushResponse Sample.msgA "r1" "ok" "" ∅;
            mkPushResponse Sample.msgB "" "error" "not registered"
              {[ "error" := "DeviceNotRegistered" ]}] = Some results
    ∧ length results = length [Sample.msgA; Sample.msgB]
    ∧ length data = length [Sample.msgA; Sample.msgB]
    ∧ ∀ i, (i < length [Sample.msgA; Sample.msgB])%nat →
        ∃ m d, [Sample.msgA; Sample.msgB] !! i = Some m
          ∧ data !! i = Some d
          ∧ results !! i
            = Some (mkPushResponse m (ID d) (Status_ d) (Message d) (Details d))
          ∧ OrigMessage <$> results !! i = [Sample.msgA; Sample.msgB] !! i.
Proof.
  eapply (PublishMultiple_pairs_by_position Sample.decode
            (Sample.clientOf (Sample.answering (Sample.ok "two")))
            [Sample.msgA; Sample.msgB] []).
  - discriminate.
  - apply validateMessages_valid. reflexivity.
  - vm_compute. reflexivity.
Defined.

(** ** Validation *)

(** C5: if a message of the list has no recipients or has an empty
    recipient, the call fails with the validation error of the first such
    message in input order: "no recipients" when that message has no
    recipients, "invalid push token" when one of its recipients is empty.
    Nothing of the batch is submitted: the log is unchanged. *)
Theorem validation_first_offending_decides jsonDecode c messages log :
  Exists offending messages →
  ∃ pre m post,
    messages = pre ++ m :: post
    ∧ Forall validMessage pre
    ∧ offending m
    ∧ PublishMultiple jsonDecode c messages log
        = (Returns (None,
             Some (if decide (To m = []) then errorString "no recipients"
                   else errorString "invalid push token")), log).
Proof.
  intros (pre & m & post & -> & Hpre & Hm)%Exists_first_offending.
  exists pre, m, post. repeat split; [done..|].
  apply publishInternal_invalid. by apply validateMessages_first.
Qed.

Lemma validation_first_offending_decides_witness :
  ∃ pre m post,
    [Sample.msgA; Sample.msgEmptyToken; Sample.msgNoRecipients] = pre ++ m :: post
    ∧ Forall validMessage pre
    ∧ offending m
    ∧ PublishMultiple Sample.decode Sample.unconfigured
        [Sample.msgA; Sample.msgEmptyToken; Sample.msgNoRecipients] []
        = (Returns (None,
             Some (if decide (To m = []) then errorString "no recipients"
                   else errorString "invalid push token")), []).
Proof.
  apply (validation_first_offending_decides Sample.decode Sample.unconfigured
           [Sample.msgA; Sample.msgEmptyToken; Sample.msgNoRecipients] []).
  apply Exists_cons_tl, Exists_cons_hd. right.
  apply list_elem_of_further, list_elem_of_here.
Defined.

(** C6: a list with a message that has no recipients or an empty recipient
    makes [PublishMultiple] return a validation error and leave the log as
    it was: no request is sent.  The transport is not consulted: the same
    holds of every client, also of one without a transport. *)
Theorem validation_failure_sends_nothing jsonDecode messages log :
  Exists offending messages →
  ∃ err,
    (err = errorString "no recipients" ∨ err = errorString "invalid push token")
    ∧ ∀ c, PublishMultiple jsonDecode c messages log = (Returns (None, Some err), log).
Proof.
  intros (pre & m & post & -> & Hpre & Hm)%Exists_first_offending.
  exists (validationErrorOf m). split.
  - unfold validationErrorOf. case_decide; [by left | by right].
  - intros c. apply publishInternal_invalid. by apply validateMessages_first.
Qed.

Lemma validation_failure_sends_nothing_witness :
  ∃ err,
    (err = errorString "no recipients" ∨ err = errorString "invalid push token")
    ∧ ∀ c, PublishMultiple Sample.decode c [Sample.msgA; Sample.msgNoRecipients] []
           = (Returns (None, Some err), []).
Proof.
  apply (validation_failure_sends_nothing Sample.decode
           [Sample.msgA; Sample.msgNoRecipients] []).
  apply Exists_cons_tl, Exists_cons_hd. by left.
Defined.

(** ** Status check *)

Lemma checkStatus_None resp :
  checkStatus resp = None ↔ 200 ≤ fastshot.StatusCode resp ≤ 299.
Proof.
  unfold checkStatus.
  destruct (fastshot.StatusCode resp >=? 200) eqn:Hlo;
    destruct (fastshot.StatusCode resp <=? 299) eqn:Hhi; cbn [andb];
    (split; [intros H | intros [H1 H2]]); first [done | lia].
Qed.

(** C7: [checkStatus] lets a response pass exactly when its status code
    lies in [200,299]; for a response with a code outside that range
    [PublishMultiple] fails with the error built from the code and the
    status text, and the only event of the call is the request: the body is
    not decoded. *)
Theorem bad_status_fails_before_decoding jsonDecode c cl messages log resp :
  Forall validMessage messages →
  httpClient c = Some cl →
  client_do cl (publishRequest c cl messages) = inr resp →
  (checkStatus resp = None ↔ 200 ≤ fastshot.StatusCode resp ≤ 299)
  ∧ (¬ 200 ≤ fastshot.StatusCode resp ≤ 299 →
     PublishMultiple jsonDecode c messages log
       = (Returns (None,
            Some (errorString ("invalid response ("
                     +:+ fmt_d (fastshot.StatusCode resp) +:+ " "
                     +:+ fastshot.Status resp +:+ ")"))),
          log ++ [EvSend (publishRequest c cl messages)])).
Proof.
  intros Hv%validateMessages_valid Hc Hs. split; [apply checkStatus_None|].
  intros Hout. apply (publishInternal_bad_status _ _ _ _ cl Hv Hc resp Hs).
  unfold checkStatus.
  destruct (fastshot.StatusCode resp >=? 200) eqn:Hlo;
    destruct (fastshot.StatusCode resp <=? 299) eqn:Hhi; cbn [andb];
    first [done | lia].
Qed.

Lemma bad_status_fails_before_decoding_witness :
  PublishMultiple Sample.decode (Sample.clientOf (Sample.answering Sample.serverError))
    [Sample.msgA] []
  = (Returns (None, Some (errorString "invalid response (500 Internal Server Error)")),
     [EvSend (mkRequest "POST" "https://stub/--/api/v2/push/send" [] [Sample.msgA])]).
Proof.
  apply (bad_status_fails_before_decoding Sample.decode
           (Sample.clientOf (Sample.answering Sample.serverError))
           (Sample.answering Sample.serverError) [Sample.msgA] [] Sample.serverError).
  - apply validateMessages_valid. reflexivity.
  - reflexivity.
  - reflexivity.
  - simpl. lia.
Defined.

(** ** Length reconciliation *)



(** ** The empty batch *)



(** ** Envelope-level errors *)

(** The reading of C4 in the spec's words fails on the code: an envelope
    whose errors field is present and empty, with its data present and of
    the right length, is refused with "Invalid server response", the error
    carrying the empty list. *)
Lemma empty_errors_envelope_is_refused :
  ¬ (∀ jsonDecode c cl messages log resp r,
       Forall validMessage messages →
       httpClient c = Some cl →
       client_do cl (publishRequest c cl messages) = inr resp →
       200 ≤ fastshot.StatusCode resp ≤ 299 →
       jsonDecode (fastshot.RawBody resp) = (Some r, None) →
       ((∃ errs, (PublishMultiple jsonDecode c messages log).1
                 = Returns (None,
                     Some (PushServerError "Invalid server response" resp r errs)))
        ↔ ((∃ errs, Errors r = Some errs ∧ errs ≠ []) ∨ Data r = None))).
Proof.
  intros Hclaim.
  destruct (Hclaim Sample.decode
              (Sample.clientOf (Sample.answering (Sample.ok "no errors, one")))
              (Sample.answering (Sample.ok "no errors, one"))
              [Sample.msgA] [] (Sample.ok "no errors, one")
              (mkResponse (Some [Sample.receiptOk "r1"]) (Some [])))
    as [Hfails _].
  - apply validateMessages_valid. reflexivity.
  - reflexivity.
  - reflexivity.
  - simpl. lia.
  - reflexivity.
  - destruct Hfails as [(errs & [= <-] & Hne) | [=]]; [|done].
    exists (Some []). vm_compute. reflexivity.
Qed.

(** C4 (amended): after a 2xx response whose body decodes into an envelope,
    [PublishMultiple] fails with the [PushServerError] "Invalid server
    response" exactly when the errors field of the envelope is present
    (not nil, empty or not) or its data field is absent; the error carries
    the errors field of the envelope, which is nil when the field is
    absent. *)
Theorem invalid_response_iff_errors_present_or_data_absent
    jsonDecode c cl messages log resp r :
  Forall validMessage messages →
  httpClient c = Some cl →
  client_do cl (publishRequest c cl messages) = inr resp →
  200 ≤ fastshot.StatusCode resp ≤ 299 →
  jsonDecode (fastshot.RawBody resp) = (Some r, None) →
  ((∃ errs, (PublishMultiple jsonDecode c messages log).1
            = Returns (None,
                Some (PushServerError "Invalid server response" resp r errs)))
   ↔ (is_Some (Errors r) ∨ Data r = None))
  ∧ (is_Some (Errors r) ∨ Data r = None →
     (PublishMultiple jsonDecode c messages log).1
       = Returns (None,
           Some (PushServerError "Invalid server response" resp r (Errors r)))).
Proof.
  intros Hv%validateMessages_valid Hc Hs Hst%checkStatus_None Hdec.
  unfold PublishMultiple.
  rewrite (publishInternal_2xx _ _ _ _ cl Hv Hc resp Hs Hst).
  cbn [fst]. unfold reconcile. rewrite Hdec.
  destruct (Errors r) as [errs|] eqn:He.
  { split; [split|]; eauto. }
  destruct (Data r) as [data|] eqn:Hd.
  2: { split; [split|]; eauto. }
  split.
  - split.
    + intros [errs Hrun]. case_decide; [done|].
      unfold mismatchMessage in Hrun. simplify_eq/=.
    + intros [[? [=]] | [=]].
  - intros [[? [=]] | [=]].
Qed.

Lemma invalid_response_iff_errors_present_or_data_absent_witness :
  (PublishMultiple Sample.decode (Sample.clientOf (Sample.answering (Sample.ok "errors")))
     [Sample.msgA] []).1
  = Returns (None,
      Some (PushServerError "Invalid server response" (Sample.ok "errors")
              (mkResponse None (Some [Sample.batchError]))
              (Some [Sample.batchError]))).
Proof.
  apply (invalid_response_iff_errors_present_or_data_absent Sample.decode
           (Sample.clientOf (Sample.answering (Sample.ok "errors")))
           (Sample.answering (Sample.ok "errors")) [Sample.msgA] []
           (Sample.ok "errors") (mkResponse None (Some [Sample.batchError]))).
  - apply validateMessages_valid. reflexivity.
  - reflexivity.
  - reflexivity.
  - simpl. lia.
  - reflexivity.
  - left. by eexists.
Defined.

(** ** Single send *)

(** C9: [Publish] of a message is [PublishMultiple] of the one-element
    list: when the batch call returns without an error its result is a
    one-element list and [Publish] returns that element; when it returns an
    error, [Publish] returns the same error with the zero [PushResponse];
    the events of the two calls are the same. *)
Theorem Publish_is_singleton_PublishMultiple jsonDecode c m log :
  match PublishMultiple jsonDecode c [m] log with
  | (Returns (responses, None), log') =>
      ∃ response, responses = Some [response]
        ∧ Publish jsonDecode c (Some m) log = (Returns (response, None), log')
  | (Returns (_, Some err), log') =>
      Publish jsonDecode c (Some m) log = (Returns (PushResponse_zero, Some err), log')
  | (Panics reason, log') =>
      Publish jsonDecode c (Some m) log = (Panics reason, log')
  end.
Proof.
  destruct (PublishMultiple jsonDecode c [m] log) as [[[rs [err|]] | reason] log'] eqn:Hrun.
  - unfold Publish, mbind, Go_bind, bind. by rewrite Hrun.
  - pose proof Hrun as Hinv. unfold PublishMultiple in Hinv.
    apply publishInternal_success_inv in Hinv
      as (cl & resp & r & data & _ & _ & _ & _ & _ & _ & _ & Hlen & -> & _).
    destruct data as [|d [|d' data]]; [done| |done].
    exists (setPushMessage d m). split; [done|].
    unfold Publish, mbind, Go_bind, bind. by rewrite Hrun.
  - unfold Publish, mbind, Go_bind, bind. by rewrite Hrun.
Qed.

(** ** Resources and construction *)

(** C2: on the path of a status outside [200,299] the call returns
    with the request as its only event: the body of the response it
    received is not closed.  On the paths after the status check it is
    (here: a body that fails to decode). *)
Theorem bad_status_leaves_body_open :
  let run := PublishMultiple Sample.decode
               (Sample.clientOf (Sample.answering Sample.serverError))
               [Sample.msgA] [] in
  let run' := PublishMultiple Sample.decode
                (Sample.clientOf (Sample.answering (Sample.ok "<html>")))
                [Sample.msgA] [] in
  run.1 = Returns (None, Some (errorString "invalid response (500 Internal Server Error)"))
  ∧ (EvClose (fastshot.RawBody Sample.serverError) ∉ run.2)
  ∧ run'.1 = Returns (None, Some (foreignError "json" "invalid character"))
  ∧ (EvClose "<html>" ∈ run'.2).
Proof.
  cbv zeta. split; [by vm_compute|]. split; [|split; [by vm_compute|]].
  - intros Hin. vm_compute in Hin.
    apply elem_of_cons in Hin as [[=] | Hin]. by apply elem_of_nil in Hin.
  - vm_compute. do 2 apply list_elem_of_further. apply list_elem_of_here.
Qed.

(** C3: [NewPushClient(nil)] returns a client with the default host, the
    default API path and an empty credential, and with no transport: its
    [httpClient] is nil, and a batch send through it panics.  A config
    that is present and empty does get the default transport, built from
    the default host without an Authorization header. *)
Theorem NewPushClient_nil_has_no_transport network jsonDecode :
  NewPushClient network None
    = mkPushClient "https://exp.host" "/--/api/v2" "" None
  ∧ NewPushClient network (Some (mkClientConfig "" "" "" None))
    = mkPushClient "https://exp.host" "/--/api/v2" ""
        (Some (mkClient "https://exp.host"
                 [("Content-Type", "application/json"); ("Accept", "application/json")]
                 network))
  ∧ PublishMultiple jsonDecode (NewPushClient network None) [Sample.msgA] []
    = (Panics "nil pointer dereference", []).
Proof. repeat split. Qed.

(** * Further properties of the code *)

(** ** Configuration *)

(** X1: the default transport targets the host it is given, always sends
    the JSON content type and accept headers, and has an Authorization
    header exactly when the access token is not empty; its value is then
    "Bearer " followed by the token. *)
Theorem DefaultHTTPClient_headers network h token :
  client_baseURL (DefaultHTTPClient network h token) = h
  ∧ ("Content-Type", "application/json") ∈ client_headers (DefaultHTTPClient network h token)
  ∧ ("Accept", "application/json") ∈ client_headers (DefaultHTTPClient network h token)
  ∧ ∀ v, ("Authorization", v) ∈ client_headers (DefaultHTTPClient network h token)
         ↔ token ≠ "" ∧ v = "Bearer " +:+ token.
Proof.
  unfold DefaultHTTPClient, mime_JSON.
  destruct (decide (token ≠ "")) as [Hne|He]; cbn.
  - split; [done|]. split; [apply list_elem_of_here|].
    split; [apply list_elem_of_further, list_elem_of_here|].
    intros v. rewrite !elem_of_cons, elem_of_nil. split.
    + intros [[=] | [[=] | [[= ->] | []]]]. done.
    + intros [_ ->]. auto.
  - split; [done|]. split; [apply list_elem_of_here|].
    split; [apply list_elem_of_further, list_elem_of_here|].
    intros v. rewrite !elem_of_cons, elem_of_nil. split.
    + intros [[=] | [[=] | []]].
    + intros [Hne _]. done.
Qed.

(** X2: whatever the config, nil included, the client never has an empty
    host or an empty API path, and its credential is the one of the config
    (empty for a nil config). *)
Theorem NewPushClient_fields_never_empty network config :
  host (NewPushClient network config) ≠ ""
  ∧ apiURL (NewPushClient network config) ≠ ""
  ∧ accessToken (NewPushClient network config) = from_option AccessToken "" config.
Proof.
  destruct config as [cfg|]; cbn; [|done].
  destruct (decide (Host cfg ≠ "")), (decide (APIURL cfg ≠ "")),
    (decide (AccessToken cfg ≠ "")) as [|He]; repeat split;
    first [done | by apply dec_stable in He].
Qed.

(** X3: a client built from a config that is not nil always has a
    transport: the one the config carries, as it is, or else the default
    transport built from the host and the credential the client itself
    ends up with (the defaults where the config leaves them empty). *)
Theorem NewPushClient_transport_of_config network cfg :
  let c := NewPushClient network (Some cfg) in
  httpClient c
  = Some (default (DefaultHTTPClient network (host c) (accessToken c)) (HTTPClient cfg)).
Proof. cbn. by destruct (HTTPClient cfg). Qed.

(** X4: a config with a host, an API path and a transport of its own is
    taken over field by field. *)
Theorem NewPushClient_keeps_explicit_settings network cfg h :
  Host cfg ≠ "" → APIURL cfg ≠ "" → HTTPClient cfg = Some h →
  NewPushClient network (Some cfg)
  = mkPushClient (Host cfg) (APIURL cfg) (AccessToken cfg) (Some h).
Proof.
  intros Hh Ha Ht. unfold NewPushClient. rewrite Ht.
  rewrite !decide_True by done.
  destruct (decide (AccessToken cfg ≠ "")) as [|He]; [done|].
  apply dec_stable in He. by rewrite He.
Qed.

Lemma NewPushClient_keeps_explicit_settings_witness :
  NewPushClient Sample.network
    (Some (mkClientConfig "https://push.example" "/v9" ""
             (Some (Sample.answering Sample.serverError))))
  = mkPushClient "https://push.example" "/v9" ""
      (Some (Sample.answering Sample.serverError)).
Proof.
  apply (NewPushClient_keeps_explicit_settings Sample.network
           (mkClientConfig "https://push.example" "/v9" ""
              (Some (Sample.answering Sample.serverError)))
           (Sample.answering Sample.serverError)).
  - discriminate.
  - discriminate.
  - reflexivity.
Defined.

(** ** The paths of a batch send *)

(** X6: an error of the transport is returned as it is, with no result;
    the request is the only event: nothing is decoded and nothing is
    closed. *)
Theorem transport_error_is_returned jsonDecode c cl messages log err :
  Forall validMessage messages →
  httpClient c = Some cl →
  client_do cl (publishRequest c cl messages) = inl err →
  PublishMultiple jsonDecode c messages log
  = (Returns (None, Some err), log ++ [EvSend (publishRequest c cl messages)]).
Proof.
  intros Hv%validateMessages_valid Hc Hs.
  by apply (publishInternal_transport_error _ _ _ _ cl).
Qed.

Lemma transport_error_is_returned_witness :
  PublishMultiple Sample.decode
    (Sample.clientOf (mkClient "https://stub" [] Sample.network)) [Sample.msgA] []
  = (Returns (None, Some (foreignError "net" "no route to host")),
     [] ++ [EvSend (publishRequest
                      (Sample.clientOf (mkClient "https://stub" [] Sample.network))
                      (mkClient "https://stub" [] Sample.network) [Sample.msgA])]).
Proof.
  apply (transport_error_is_returned Sample.decode
           (Sample.clientOf (mkClient "https://stub" [] Sample.network))
           (mkClient "https://stub" [] Sample.network) [Sample.msgA] []
           (foreignError "net" "no route to host")).
  - apply validateMessages_valid. reflexivity.
  - reflexivity.
  - reflexivity.
Defined.

(** X7: when the body of a 2xx response does not decode, the error of the
    decoder is returned as it is, with no result, whatever the decoder left
    in the envelope; the body has been closed. *)
Theorem decode_error_is_returned jsonDecode c cl messages log resp r err :
  Forall validMessage messages →
  httpClient c = Some cl →
  client_do cl (publishRequest c cl messages) = inr resp →
  200 ≤ fastshot.StatusCode resp ≤ 299 →
  jsonDecode (fastshot.RawBody resp) = (r, Some err) →
  PublishMultiple jsonDecode c messages log
  = (Returns (None, Some err),
     log ++ [EvSend (publishRequest c cl messages);
             EvDecode (fastshot.RawBody resp); EvClose (fastshot.RawBody resp)]).
Proof.
  intros Hv%validateMessages_valid Hc Hs Hst%checkStatus_None Hdec.
  unfold PublishMultiple.
  rewrite (publishInternal_2xx _ _ _ _ cl Hv Hc resp Hs Hst).
  unfold reconcile. rewrite Hdec. by destruct r.
Qed.

Lemma decode_error_is_returned_witness :
  PublishMultiple Sample.decode
    (Sample.clientOf (Sample.answering (Sample.ok "<html>"))) [Sample.msgA] []
  = (Returns (None, Some (foreignError "json" "invalid character")),
     [] ++ [EvSend (publishRequest
                      (Sample.clientOf (Sample.answering (Sample.ok "<html>")))
                      (Sample.answering (Sample.ok "<html>")) [Sample.msgA]);
            EvDecode "<html>"; EvClose "<html>"]).
Proof.
  apply (decode_error_is_returned Sample.decode
           (Sample.clientOf (Sample.answering (Sample.ok "<html>")))
           (Sample.answering (Sample.ok "<html>")) [Sample.msgA] []
           (Sample.ok "<html>") None (foreignError "json" "invalid character")).
  - apply validateMessages_valid. reflexivity.
  - reflexivity.
  - reflexivity.
  - simpl. lia.
  - reflexivity.
Defined.

(** X8: when the decoder reports no error and leaves the envelope pointer
    nil (a body that is the JSON [null]), the call panics on the nil
    pointer; the deferred close of the body still runs. *)
Theorem nil_envelope_panics jsonDecode c cl messages log resp :
  Forall validMessage messages →
  httpClient c = Some cl →
  client_do cl (publishRequest c cl messages) = inr resp →
  200 ≤ fastshot.StatusCode resp ≤ 299 →
  jsonDecode (fastshot.RawBody resp) = (None, None) →
  PublishMultiple jsonDecode c messages log
  = (Panics "nil pointer dereference",
     log ++ [EvSend (publishRequest c cl messages);
             EvDecode (fastshot.RawBody resp); EvClose (fastshot.RawBody resp)]).
Proof.
  intros Hv%validateMessages_valid Hc Hs Hst%checkStatus_None Hdec.
  unfold PublishMultiple.
  rewrite (publishInternal_2xx _ _ _ _ cl Hv Hc resp Hs Hst).
  unfold reconcile. by rewrite Hdec.
Qed.

Lemma nil_envelope_panics_witness :
  PublishMultiple Sample.decode
    (Sample.clientOf (Sample.answering (Sample.ok "null"))) [Sample.msgA] []
  = (Panics "nil pointer dereference",
     [] ++ [EvSend (publishRequest
                      (Sample.clientOf (Sample.answering (Sample.ok "null")))
                      (Sample.answering (Sample.ok "null")) [Sample.msgA]);
            EvDecode "null"; EvClose "null"]).
Proof.
  apply (nil_envelope_panics Sample.decode
           (Sample.clientOf (Sample.answering (Sample.ok "null")))
           (Sample.answering (Sample.ok "null")) [Sample.msgA] [] (Sample.ok "null")).
  - apply validateMessages_valid. reflexivity.
  - reflexivity.
  - reflexivity.
  - simpl. lia.
  - reflexivity.
Defined.

(** X9: a 2xx response whose envelope has no errors field and a data list
    of the length of the input makes the call succeed; result [i] is
    receipt [i] as decoded, untouched in its wire fields, with input
    message [i] in place of whatever the decoder left in its
    back-reference; the body has been closed. *)
Theorem matching_envelope_succeeds jsonDecode c cl messages log resp r data :
  Forall validMessage messages →
  httpClient c = Some cl →
  client_do cl (publishRequest c cl messages) = inr resp →
  200 ≤ fastshot.StatusCode resp ≤ 299 →
  jsonDecode (fastshot.RawBody resp) = (Some r, None) →
  Errors r = None →
  Data r = Some data →
  length data = length messages →
  ∃ results,
    PublishMultiple jsonDecode c messages log
    = (Returns (Some results, None),
       log ++ [EvSend (publishRequest c cl messages);
               EvDecode (fastshot.RawBody resp); EvClose (fastshot.RawBody resp)])
    ∧ length results = length messages
    ∧ ∀ i d m, data !! i = Some d → messages !! i = Some m →
        results !! i = Some (mkPushResponse m (ID d) (Status_ d) (Message d) (Details d)).
Proof.
  intros Hv%validateMessages_valid Hc Hs Hst%checkStatus_None Hdec He Hd Hlen.
  exists (zip_with setPushMessage data messages). split; [|split].
  - unfold PublishMultiple.
    rewrite (publishInternal_2xx _ _ _ _ cl Hv Hc resp Hs Hst).
    unfold reconcile. rewrite Hdec, He, Hd. by rewrite decide_True.
  - rewrite length_zip_with. lia.
  - intros i d m Hdi Hmi. rewrite lookup_zip_with, Hdi. cbn. by rewrite Hmi.
Qed.

Lemma matching_envelope_succeeds_witness :
  ∃ results,
    PublishMultiple Sample.decode
      (Sample.clientOf (Sample.answering (Sample.ok "two")))
      [Sample.msgA; Sample.msgB] []
    = (Returns (Some results, None),
       [] ++ [EvSend (publishRequest
                        (Sample.clientOf (Sample.answering (Sample.ok "two")))
                        (Sample.answering (Sample.ok "two"))
                        [Sample.msgA; Sample.msgB]);
              EvDecode "two"; EvClose "two"])
    ∧ length results = length [Sample.msgA; Sample.msgB]
    ∧ ∀ i d m, [Sample.receiptOk "r1"; Sample.receiptError] !! i = Some d →
        [Sample.msgA; Sample.msgB] !! i = Some m →
        results !! i = Some (mkPushResponse m (ID d) (Status_ d) (Message d) (Details d)).
Proof.
  apply (matching_envelope_succeeds Sample.decode
           (Sample.clientOf (Sample.answering (Sample.ok "two")))
           (Sample.answering (Sample.ok "two")) [Sample.msgA; Sample.msgB] []
           (Sample.ok "two")
           (mkResponse (Some [Sample.receiptOk "r1"; Sample.receiptError]) None)
           [Sample.receiptOk "r1"; Sample.receiptError]).
  - apply validateMessages_valid. reflexivity.
  - reflexivity.
  - reflexivity.
  - simpl. lia.
  - reflexivity.
  - reflexivity.
  - reflexivity.
  - reflexivity.
Defined.

(** ** What a batch send never does *)

(** X10: a call that returns hands back either a list that is not nil and
    no error, or the nil list and an error: never results together with an
    error, never neither. *)
Theorem result_xor_error jsonDecode c messages log rs err log' :
  PublishMultiple jsonDecode c messages log = (Returns (rs, err), log') →
  (is_Some rs ∧ err = None) ∨ (rs = None ∧ is_Some err).
Proof.
  unfold PublishMultiple. intros Hrun.
  destruct (validateMessages messages) as [e|] eqn:Hv.
  { rewrite (publishInternal_invalid _ _ _ _ e Hv) in Hrun.
    injection Hrun as <- <- _. right. eauto. }
  destruct (httpClient c) as [cl|] eqn:Hc.
  2: { by rewrite publishInternal_no_client in Hrun. }
  destruct (client_do cl (publishRequest c cl messages)) as [e|resp] eqn:Hs.
  { rewrite (publishInternal_transport_error _ _ _ _ cl Hv Hc e Hs) in Hrun.
    injection Hrun as <- <- _. right. eauto. }
  destruct (checkStatus resp) as [e|] eqn:Hst.
  { rewrite (publishInternal_bad_status _ _ _ _ cl Hv Hc resp Hs e Hst) in Hrun.
    injection Hrun as <- <- _. right. eauto. }
  rewrite (publishInternal_2xx _ _ _ _ cl Hv Hc resp Hs Hst) in Hrun.
  injection Hrun as Hrec _. unfold reconcile in Hrec.
  destruct (jsonDecode (fastshot.RawBody resp)) as [[r|] [e|]];
    try (injection Hrec as <- <-; right; by eauto); try done.
  destruct (Errors r), (Data r); try case_decide;
    injection Hrec as <- <-; first [right; by eauto | left; by eauto].
Qed.

Lemma result_xor_error_witness :
  (is_Some (Some [setPushMessage (Sample.receiptOk "r1") Sample.msgA])
   ∧ (None : option error) = None)
  ∨ (Some [setPushMessage (Sample.receiptOk "r1") Sample.msgA] = None
     ∧ is_Some (None : option error)).
Proof.
  eapply (result_xor_error Sample.decode
            (Sample.clientOf (Sample.answering (Sample.ok "one"))) [Sample.msgA] []).
  vm_compute. reflexivity.
Defined.

(** X11: a batch send panics in two situations only: the client has no
    transport, or the decoder reported no error and left the envelope
    pointer nil.  In particular the pairing loop never indexes outside the
    input or the data list. *)
Theorem panics_only_on_nil jsonDecode c messages log reason log' :
  PublishMultiple jsonDecode c messages log = (Panics reason, log') →
  reason = "nil pointer dereference"
  ∧ Forall validMessage messages
  ∧ (httpClient c = None
     ∨ ∃ cl resp,
         httpClient c = Some cl
         ∧ client_do cl (publishRequest c cl messages) = inr resp
         ∧ 200 ≤ fastshot.StatusCode resp ≤ 299
         ∧ jsonDecode (fastshot.RawBody resp) = (None, None)).
Proof.
  unfold PublishMultiple. intros Hrun.
  destruct (validateMessages messages) as [e|] eqn:Hv.
  { by rewrite (publishInternal_invalid _ _ _ _ e Hv) in Hrun. }
  destruct (httpClient c) as [cl|] eqn:Hc.
  2: { rewrite publishInternal_no_client in Hrun by done.
       injection Hrun as <- _. split; [done|].
       split; [by apply validateMessages_valid | by left]. }
  destruct (client_do cl (publishRequest c cl messages)) as [e|resp] eqn:Hs.
  { by rewrite (publishInternal_transport_error _ _ _ _ cl Hv Hc e Hs) in Hrun. }
  destruct (checkStatus resp) as [e|] eqn:Hst.
  { by rewrite (publishInternal_bad_status _ _ _ _ cl Hv Hc resp Hs e Hst) in Hrun. }
  rewrite (publishInternal_2xx _ _ _ _ cl Hv Hc resp Hs Hst) in Hrun.
  injection Hrun as Hrec _. unfold reconcile in Hrec.
  destruct (jsonDecode (fastshot.RawBody resp)) as [[r|] [e|]] eqn:Hdec; try done.
  - destruct (Errors r), (Data r); try case_decide; done.
  - injection Hrec as <-. split; [done|].
    split; [by apply validateMessages_valid|]. right.
    exists cl, resp. by rewrite <- checkStatus_None.
Qed.

Lemma panics_only_on_nil_witness :
  "nil pointer dereference" = "nil pointer dereference"
  ∧ Forall validMessage [Sample.msgA]
  ∧ (httpClient Sample.unconfigured = None
     ∨ ∃ cl resp,
         httpClient Sample.unconfigured = Some cl
         ∧ client_do cl (publishRequest Sample.unconfigured cl [Sample.msgA]) = inr resp
         ∧ 200 ≤ fastshot.StatusCode resp ≤ 299
         ∧ Sample.decode (fastshot.RawBody resp) = (None, None)).
Proof.
  eapply (panics_only_on_nil Sample.decode Sample.unconfigured [Sample.msgA] []).
  vm_compute. reflexivity.
Defined.

(** X12: the events of a batch send, for every input and every
    collaborator: none; or the one request; or the request, the decoding
    of the body of the response received and the closing of that same
    body, in this order.  So a call sends at most one request, closes
    nothing it has not decoded and never closes twice. *)
Theorem events_of_a_call jsonDecode c messages log :
  ∃ evs,
    (PublishMultiple jsonDecode c messages log).2 = log ++ evs
    ∧ (evs = []
       ∨ ∃ cl, httpClient c = Some cl
           ∧ (evs = [EvSend (publishRequest c cl messages)]
              ∨ ∃ resp,
                  client_do cl (publishRequest c cl messages) = inr resp
                  ∧ evs = [EvSend (publishRequest c cl messages);
                           EvDecode (fastshot.RawBody resp);
                           EvClose (fastshot.RawBody resp)])).
Proof.
  unfold PublishMultiple.
  destruct (validateMessages messages) as [e|] eqn:Hv.
  { rewrite (publishInternal_invalid _ _ _ _ e Hv).
    exists []. split; [by rewrite (right_id_L [] (++)) | by left]. }
  destruct (httpClient c) as [cl|] eqn:Hc.
  2: { rewrite publishInternal_no_client by done.
       exists []. split; [by rewrite (right_id_L [] (++)) | by left]. }
  destruct (client_do cl (publishRequest c cl messages)) as [e|resp] eqn:Hs.
  { rewrite (publishInternal_transport_error _ _ _ _ cl Hv Hc e Hs).
    eexists. split; [done|]. right. exists cl. split; [done | by left]. }
  destruct (checkStatus resp) as [e|] eqn:Hst.
  { rewrite (publishInternal_bad_status _ _ _ _ cl Hv Hc resp Hs e Hst).
    eexists. split; [done|]. right. exists cl. split; [done | by left]. }
  rewrite (publishInternal_2xx _ _ _ _ cl Hv Hc resp Hs Hst).
  eexists. split; [done|]. right. exists cl. split; [done|]. right. by exists resp.
Qed.

(** ** Single send and validation *)

(** X13: the receipt a successful [Publish] returns carries the message
    that was published, and the call sent one request whose body is that
    one message. *)
Theorem Publish_returns_own_message jsonDecode c m log response log' :
  Publish jsonDecode c (Some m) log = (Returns (response, None), log') →
  OrigMessage response = m
  ∧ ∃ cl resp,
      httpClient c = Some cl
      ∧ req_body (publishRequest c cl [m]) = [m]
      ∧ log' = log ++ [EvSend (publishRequest c cl [m]);
                       EvDecode (fastshot.RawBody resp);
                       EvClose (fastshot.RawBody resp)].
Proof.
  unfold Publish, mbind, Go_bind, bind.
  destruct (PublishMultiple jsonDecode c [m] log) as [[[rs [e|]] | reason] l] eqn:Hrun;
    [done | | done].
  unfold PublishMultiple in Hrun.
  apply publishInternal_success_inv in Hrun
    as (cl & resp & r & data & _ & Hc & _ & _ & _ & _ & _ & Hlen & -> & ->).
  destruct data as [|d [|d' data]]; [done | | done].
  cbn. intros [= <- <-]. split; [done|]. by exists cl, resp.
Qed.

Lemma Publish_returns_own_message_witness :
  OrigMessage (setPushMessage (Sample.receiptOk "r1") Sample.msgA) = Sample.msgA
  ∧ ∃ cl resp,
      httpClient (Sample.clientOf (Sample.answering (Sample.ok "one"))) = Some cl
      ∧ req_body (publishRequest (Sample.clientOf (Sample.answering (Sample.ok "one")))
                    cl [Sample.msgA]) = [Sample.msgA]
      ∧ [EvSend (mkRequest "POST" "https://stub/--/api/v2/push/send" [] [Sample.msgA]);
         EvDecode "one"; EvClose "one"]
        = [] ++ [EvSend (publishRequest
                           (Sample.clientOf (Sample.answering (Sample.ok "one")))
                           cl [Sample.msgA]);
                 EvDecode (fastshot.RawBody resp);
                 EvClose (fastshot.RawBody resp)].
Proof.
  apply (Publish_returns_own_message Sample.decode
           (Sample.clientOf (Sample.answering (Sample.ok "one"))) Sample.msgA []).
  vm_compute. reflexivity.
Defined.

(** X14: [Publish] of a message without recipients, or with an empty
    recipient, returns the zero receipt and the validation error of that
    message, for every client, and sends nothing. *)
Theorem Publish_invalid_message jsonDecode c m log :
  offending m →
  Publish jsonDecode c (Some m) log
  = (Returns (PushResponse_zero,
       Some (if decide (To m = []) then errorString "no recipients"
             else errorString "invalid push token")), log).
Proof.
  intros Hm. unfold Publish, mbind, Go_bind, bind, PublishMultiple.
  rewrite (publishInternal_invalid _ _ _ _ (validationErrorOf m)); [done|].
  by apply (validateMessages_first [] m []).
Qed.

Lemma Publish_invalid_message_witness :
  Publish Sample.decode Sample.unconfigured (Some Sample.msgNoRecipients) []
  = (Returns (PushResponse_zero,
       Some (if decide (To Sample.msgNoRecipients = [])
             then errorString "no recipients"
             else errorString "invalid push token")), []).
Proof.
  apply (Publish_invalid_message Sample.decode Sample.unconfigured
           Sample.msgNoRecipients []).
  by left.
Defined.

(** X15: validating a batch made of two batches is validating the first
    and, when it passes, the second: the error is the one of the first
    batch when it has one.  So a batch passes exactly when each part
    does, and splitting a batch never hides or adds a validation error. *)
Theorem validateMessages_app batch1 batch2 :
  validateMessages (batch1 ++ batch2)
  = match validateMessages batch1 with
    | Some err => Some err
    | None => validateMessages batch2
    end.
Proof.
  induction batch1 as [|m batch1 IH]; [done|].
  rewrite <- app_comm_cons, !validateMessages_cons.
  by destruct (decide (offending m)).
Qed.

(** X16: validation reads the recipients only: two batches whose messages
    have the same recipient lists, position by position, get the same
    verdict, whatever their payloads. *)
Theorem validateMessages_recipients_only batch1 batch2 :
  To <$> batch1 = To <$> batch2 →
  validateMessages batch1 = validateMessages batch2.
Proof.
  revert batch2. induction batch1 as [|m1 batch1 IH]; intros [|m2 batch2] Heq;
    try done.
  injection Heq as Hto Hrest. cbn [validateMessages].
  by rewrite Hto, (IH batch2 Hrest).
Qed.

Lemma validateMessages_recipients_only_witness :
  validateMessages [Sample.msgA]
  = validateMessages [mkPushMessage ["ExponentPushToken[A]"] "other" "" ∅ "" "low"].
Proof.
  apply (validateMessages_recipients_only [Sample.msgA]
           [mkPushMessage ["ExponentPushToken[A]"] "other" "" ∅ "" "low"]).
  reflexivity.
Defined.
